(** * html_to_pdf.py: the converter attempt chain

    A shallow embedding of [src/html_to_pdf.py].  The script is a straight
    line of calls into the operating system and into optional libraries,
    wrapped in three [try] statements.  The collaborators are opaque, so
    their behaviour is a parameter of the model (a [world]): for each call
    the world says whether it returns (and what) or raises (and which
    exception).  The function is then a program in a small trace-and-control
    monad: every call the script makes is recorded in a trace, in order, and
    the control part says whether a block fell off its end, executed
    [return], or is unwinding with an exception. *)

From Stdlib Require Import String Ascii List ZArith Bool Lia.
Import ListNotations.
Local Open Scope string_scope.
Local Open Scope Z_scope.

(** ** Strings *)

Module Str.

(** The double quote and the line feed, as one-character strings. *)
Definition dq : string := String "034"%char EmptyString.
Definition nl : string := String "010"%char EmptyString.

(** [p] is an initial segment of [s]. *)
Fixpoint starts_with (p s : string) : bool :=
  match p, s with
  | EmptyString, _ => true
  | String a p', String b s' => Ascii.eqb a b && starts_with p' s'
  | String _ _, EmptyString => false
  end.

(** Python's [p in s] on strings. *)
Fixpoint is_infix (p s : string) : bool :=
  starts_with p s ||
  match s with
  | EmptyString => false
  | String _ s' => is_infix p s'
  end.

(** The same, as a proposition. *)
Definition Infix (p s : string) : Prop :=
  exists pre post, s = pre ++ p ++ post.






(** The last character of a string. *)
Fixpoint last (s : string) : option ascii :=
  match s with
  | EmptyString => None
  | String c EmptyString => Some c
  | String _ s' => last s'
  end.

(** What a sequence of [print] calls puts on standard output. *)
Fixpoint unlines (ls : list string) : string :=
  match ls with
  | [] => EmptyString
  | l :: ls' => l ++ nl ++ unlines ls'
  end.

End Str.

(** ** Exceptions *)

Module Exn.

(** The part of Python's built-in exception hierarchy the script can meet. *)
Inductive cls : Type :=
| BaseException
| KeyboardInterrupt
| Exception
| ImportError
| ModuleNotFoundError
| OSError
| FileNotFoundError
| PermissionError.

Definition cls_eqb (a b : cls) : bool :=
  match a, b with
  | BaseException, BaseException
  | KeyboardInterrupt, KeyboardInterrupt
  | Exception, Exception
  | ImportError, ImportError
  | ModuleNotFoundError, ModuleNotFoundError
  | OSError, OSError
  | FileNotFoundError, FileNotFoundError
  | PermissionError, PermissionError => true
  | _, _ => false
  end.

(** The base class of each class. *)
Definition base (c : cls) : option cls :=
  match c with
  | BaseException => None
  | KeyboardInterrupt => Some BaseException
  | Exception => Some BaseException
  | ImportError => Some Exception
  | ModuleNotFoundError => Some ImportError
  | OSError => Some Exception
  | FileNotFoundError => Some OSError
  | PermissionError => Some OSError
  end.

(** [issubclass c d], walking up at most [fuel] base classes. *)
Fixpoint issubclass_fuel (fuel : nat) (c d : cls) : bool :=
  cls_eqb c d ||
  match fuel with
  | O => false
  | S fuel' =>
      match base c with
      | Some b => issubclass_fuel fuel' b d
      | None => false
      end
  end.

(** The hierarchy above is three levels deep. *)
Definition issubclass (c d : cls) : bool := issubclass_fuel 4 c d.

(** A raised exception: its class and [str(e)]. *)
Record t : Type := mk { class_of : cls; str : string }.

Definition isinstance (e : t) (d : cls) : bool := issubclass (class_of e) d.

End Exn.

(** ** The world *)

(** What a call does: it returns a value or raises. *)
Inductive outcome (A : Type) : Type :=
| Ret (a : A)
| Exc (e : Exn.t).
Arguments Ret {A} a.
Arguments Exc {A} e.

(** The behaviour of everything outside the script.  Each field is one
    callee, a function of the arguments the script passes.  The script
    calls no callee twice with the same arguments, so a function is
    enough. *)
Record world : Type := {
  (** [subprocess.run(argv)]: the [returncode] of the finished process. *)
  subprocess_run : list string -> outcome Z;
  (** [import m]. *)
  import_module : string -> outcome unit;
  (** [weasyprint.HTML(filename=...)]. *)
  weasyprint_HTML : string -> outcome unit;
  (** [HTML.write_pdf(target)]. *)
  write_pdf : string -> outcome unit;
  (** [tempfile.NamedTemporaryFile(mode='w', suffix=..., delete=False)]:
      the directory, prefix and random part of the new file's name. *)
  NamedTemporaryFile : string -> outcome string;
  (** [f.write(text)] on the file named by the first argument. *)
  file_write : string -> string -> outcome unit;
  (** Leaving the [with] block closes (and flushes) the file. *)
  file_close : string -> outcome unit;
  (** [os.chmod(path, mode)]. *)
  os_chmod : string -> Z -> outcome unit;
  (** [os.unlink(path)]. *)
  os_unlink : string -> outcome unit
}.

(** ** Traces *)

(** One entry per call the script makes, recorded when the call is made,
    whether it then returns or raises. *)
Inductive event : Type :=
| SubprocessRun (argv : list string) (capture_output : bool)
| ImportModule (module : string)
| WeasyHTML (filename : string)
| WritePdf (target : string)
| TempCreate (mode suffix : string) (delete : bool)
| FileWrite (path text : string)
| FileClose (path : string)
| Chmod (path : string) (mode : Z)
| Unlink (path : string)
| PrintLine (line : string).

Definition trace : Type := list event.

(** ** Control *)

(** How a block of statements ends. *)
Inductive ctl (A : Type) : Type :=
| Next (a : A)          (* fell off the end, with a value *)
| Return                (* executed [return] *)
| Raise (e : Exn.t).    (* unwinding *)
Arguments Next {A} a.
Arguments Return {A}.
Arguments Raise {A} e.

Definition M (A : Type) : Type := trace * ctl A.

Definition pure {A} (a : A) : M A := ([], Next a).

Definition bind {A B} (m : M A) (k : A -> M B) : M B :=
  match m with
  | (t, Next a) => let (t', r) := k a in ((t ++ t')%list, r)
  | (t, Return) => (t, Return)
  | (t, Raise e) => (t, Raise e)
  end.

Declare Scope py_scope.
Delimit Scope py_scope with py.
Notation "x <- m ;; k" := (bind m (fun x => k))
  (at level 61, m at next level, right associativity) : py_scope.
Notation "m ;; k" := (bind m (fun _ => k))
  (at level 61, right associativity) : py_scope.
Local Open Scope py_scope.

(** A call into the world. *)
Definition call {A} (ev : event) (o : outcome A) : M A :=
  ([ev], match o with Ret a => Next a | Exc e => Raise e end).

(** [print(s)]; writing to standard output is taken to succeed. *)
Definition print (s : string) : M unit := ([PrintLine s], Next tt).

(** [pass]. *)
Definition pass : M unit := pure tt.

(** [return]. *)
Definition return_ {A} : M A := ([], Return).

(** [try: body / except <clause>: handler].  [catches e] says whether the
    clause matches [e]; an exception it does not match keeps unwinding. *)
Definition try_except (body : M unit) (catches : Exn.t -> bool)
    (handler : Exn.t -> M unit) : M unit :=
  match body with
  | (t, Raise e) =>
      if catches e then let (t', r) := handler e in ((t ++ t')%list, r)
      else (t, Raise e)
  | other => other
  end.

(** [with open_ as f: body]: once the file is open, leaving the block closes
    it, also when the body is unwinding.  An exception raised by the close
    replaces whatever the body ended with; otherwise the body's ending
    stands. *)
Definition with_file {A} (open_ : M string) (close_ : string -> M unit)
    (body : string -> M A) : M A :=
  match open_ with
  | (t, Next f) =>
      let (tb, rb) := body f in
      match close_ f with
      | (tc, Raise e) => ((t ++ tb ++ tc)%list, Raise e)
      | (tc, _) => ((t ++ tb ++ tc)%list, rb)
      end
  | (t, Return) => (t, Return)
  | (t, Raise e) => (t, Raise e)
  end.

(** ** The program *)

Section Program.

Variable w : world.

(** Lines 7-8. *)
Definition html_file : string :=
  "/Users/matvey/Dev/MusicVisualizer/OPTIMIZATION_ROADMAP.html".
Definition pdf_file : string :=
  "/Users/matvey/Dev/MusicVisualizer/OPTIMIZATION_ROADMAP.pdf".

(** [subprocess.run(argv, capture_output=...)], giving [result.returncode]. *)
Definition run (argv : list string) (capture_output : bool) : M Z :=
  call (SubprocessRun argv capture_output) (subprocess_run w argv).

Definition import (m : string) : M unit :=
  call (ImportModule m) (import_module w m).

(** The two processes of the first attempt: what the script passes, what
    the world answers, and how the calls show in the trace. *)
Definition which_argv : list string := ["which"; "wkhtmltopdf"].
Definition tool_argv : list string := ["wkhtmltopdf"; html_file; pdf_file].
Definition probe : outcome Z := subprocess_run w which_argv.
Definition tool : outcome Z := subprocess_run w tool_argv.
Definition which_event : event := SubprocessRun which_argv true.
Definition tool_event : event := SubprocessRun tool_argv false.

(** Lines 12-16: the body of the first [try]. *)
Definition attempt_A_body : M unit :=
  returncode <- run ["which"; "wkhtmltopdf"] true ;;
  if returncode =? 0 then
    run ["wkhtmltopdf"; html_file; pdf_file] false ;;
    print ("PDF created using wkhtmltopdf: " ++ pdf_file) ;;
    return_
  else pass.

(** Lines 10-18: the first [try], with its bare [except: pass]. *)
Definition attempt_A : M unit :=
  try_except attempt_A_body (fun _ => true) (fun _ => pass).

(** Lines 22-25: the body of the second [try]. *)
Definition attempt_B_body : M unit :=
  import "weasyprint" ;;
  call (WeasyHTML html_file) (weasyprint_HTML w html_file) ;;
  call (WritePdf pdf_file) (write_pdf w pdf_file) ;;
  print ("PDF created using WeasyPrint: " ++ pdf_file) ;;
  return_.

(** Lines 20-27: the second [try], with [except ImportError: pass]. *)
Definition attempt_B : M unit :=
  try_except attempt_B_body
    (fun e => Exn.isinstance e Exn.ImportError)
    (fun _ => pass).

(** Lines 35-39: the f-string, from the line feed after the opening
    quotes to the indentation before the closing ones. *)
Definition script : string :=
  Str.nl ++
  "        open -a Safari " ++ Str.dq ++ html_file ++ Str.dq ++ Str.nl ++
  "        sleep 3" ++ Str.nl ++
  "        osascript -e 'tell application " ++ Str.dq ++ "Safari" ++ Str.dq
    ++ " to print the front document'" ++ Str.nl ++
  "        ".

(** Lines 41-43: the [with] block; its value is [script_path]. *)
Definition write_script : M string :=
  with_file
    (stem <- call (TempCreate "w" ".sh" false) (NamedTemporaryFile w ".sh") ;;
     pure (stem ++ ".sh"))
    (fun name => call (FileClose name) (file_close w name))
    (fun name =>
       call (FileWrite name script) (file_write w name script) ;;
       pure name).

(** Lines 51-57: the handler of the third [try]. *)
Definition report_failure (e : Exn.t) : M unit :=
  print ("All PDF conversion methods failed: " ++ Exn.str e) ;;
  print (Str.nl ++ "Alternative solutions:") ;;
  print "1. Open the HTML file in a browser and use Print > Save as PDF" ;;
  print "2. Install pandoc: brew install pandoc" ;;
  print "3. Install wkhtmltopdf: brew install wkhtmltopdf" ;;
  print (Str.nl ++ "HTML file is available at: " ++ html_file).

(** Lines 31-49: the body of the third [try]; 493 is [0o755]. *)
Definition attempt_C_body : M unit :=
  import "tempfile" ;;
  import "shutil" ;;
  script_path <- write_script ;;
  call (Chmod script_path 493) (os_chmod w script_path 493) ;;
  run [script_path] false ;;
  call (Unlink script_path) (os_unlink w script_path) ;;
  print "Attempted to print via Safari - check your Downloads folder for the PDF".

(** Lines 29-57: the third [try], with [except Exception as e]. *)
Definition attempt_C : M unit :=
  try_except attempt_C_body
    (fun e => Exn.isinstance e Exn.Exception)
    report_failure.

(** Lines 6-57. *)
Definition html_to_pdf : M unit :=
  attempt_A ;; attempt_B ;; attempt_C.

(** How a call of the function ends for its caller: with [None], both when
    it executes [return] and when it falls off its end, or with an
    exception. *)
Definition call_result (m : M unit) : outcome unit :=
  match snd m with
  | Next _ | Return => Ret tt
  | Raise e => Exc e
  end.

(** Lines 59-60: the module calls the function and ends.  The interpreter
    exits with status 0 then; an exception nobody caught makes it print a
    traceback and exit with status 1, and an interrupt nobody caught ends
    the process by SIGINT, which a shell reports as 130. *)
Definition exit_status : Z :=
  match call_result html_to_pdf with
  | Ret _ => 0
  | Exc e =>
      if Exn.isinstance e Exn.KeyboardInterrupt then 130 else 1
  end.

(** Everything the run did, in order. *)
Definition events : trace := fst html_to_pdf.

(** A block that ends by falling off its end lets the next statement
    run. *)
Definition falls_through (m : M unit) : bool :=
  match snd m with Next _ => true | _ => false end.

(** Whether the second and the third [try] are entered. *)
Definition runs_B : bool := falls_through attempt_A.
Definition runs_C : bool := runs_B && falls_through attempt_B.

End Program.

(** ** Observations on traces *)

(** The lines printed. *)
Definition printed_of (t : trace) : list string :=
  flat_map (fun ev => match ev with PrintLine l => [l] | _ => [] end) t.

(** The calls made, prints apart. *)
Definition calls_of (t : trace) : trace :=
  filter (fun ev => match ev with PrintLine _ => false | _ => true end) t.

(** Standard output at the end of the run. *)
Definition stdout (w : world) : string := Str.unlines (printed_of (events w)).

(** Equality of argument vectors, lengths first. *)
Fixpoint argv_eqb (a b : list string) : bool :=
  match a, b with
  | [], [] => true
  | x :: a', y :: b' => argv_eqb a' b' && String.eqb x y
  | _, _ => false
  end.

(** The calls of a trace that start the process [argv]. *)
Definition runs_of (argv : list string) (t : trace) : trace :=
  filter (fun ev => match ev with
                    | SubprocessRun a _ => argv_eqb a argv
                    | _ => false
                    end) t.

Definition is_unlink (ev : event) : bool :=
  match ev with Unlink _ => true | _ => false end.

(** The file an event creates, writes, changes, runs or removes is [p]. *)
Definition targets (p : string) (ev : event) : bool :=
  match ev with
  | SubprocessRun argv _ => existsb (String.eqb p) argv
  | ImportModule _ => false
  | WeasyHTML f => String.eqb p f
  | WritePdf f => String.eqb p f
  | TempCreate _ _ _ => false
  | FileWrite f _ => String.eqb p f
  | FileClose f => String.eqb p f
  | Chmod f _ => String.eqb p f
  | Unlink f => String.eqb p f
  | PrintLine _ => false
  end.

(** ** Sample worlds *)

Module Worlds.

(** A world from the outcome of each call site: the probe, the tool, the
    import of weasyprint, the two rendering calls, the temporary file's
    creation, write and close, the chmod, the script and the unlink.
    Importing a standard module succeeds. *)
Definition make (probe tool : outcome Z) (weasy html pdf : outcome unit)
    (tmp : outcome string) (wr cl chm : outcome unit) (scr : outcome Z)
    (unl : outcome unit) : world :=
  {| subprocess_run argv :=
       match argv with
       | cmd :: _ =>
           if String.eqb cmd "which" then probe
           else if String.eqb cmd "wkhtmltopdf" then tool
           else scr
       | [] => scr
       end;
     import_module m := if String.eqb m "weasyprint" then weasy else Ret tt;
     weasyprint_HTML _ := html;
     write_pdf _ := pdf;
     NamedTemporaryFile _ := tmp;
     file_write _ _ := wr;
     file_close _ := cl;
     os_chmod _ _ := chm;
     os_unlink _ := unl |}.

Definition ok : outcome unit := Ret tt.
Definition tmp_stem : string := "/tmp/tmpk3v9x0qa".
Definition tmp_name : string := "/tmp/tmpk3v9x0qa.sh".

Definition no_weasyprint : Exn.t :=
  Exn.mk Exn.ModuleNotFoundError "No module named 'weasyprint'".
Definition exec_format : Exn.t :=
  Exn.mk Exn.OSError "[Errno 8] Exec format error: '/tmp/tmpk3v9x0qa.sh'".
Definition denied : Exn.t :=
  Exn.mk Exn.PermissionError
    "[Errno 13] Permission denied: '/Users/matvey/Dev/MusicVisualizer/OPTIMIZATION_ROADMAP.pdf'".
Definition interrupt : Exn.t := Exn.mk Exn.KeyboardInterrupt EmptyString.

(** The tool is installed and exits with [rc]. *)
Definition tool_exits (rc : Z) : world :=
  make (Ret 0) (Ret rc) ok ok ok (Ret tmp_stem) ok ok ok (Ret 0) ok.

(** The tool is installed; the user interrupts it; weasyprint is there. *)
Definition tool_interrupted : world :=
  make (Ret 0) (Exc interrupt) ok ok ok (Ret tmp_stem) ok ok ok (Ret 0) ok.

(** No tool; weasyprint is installed and renders. *)
Definition weasyprint_renders : world :=
  make (Ret 1) (Ret 0) ok ok ok (Ret tmp_stem) ok ok ok (Ret 0) ok.

(** No tool; weasyprint is installed but may not write the PDF. *)
Definition weasyprint_denied : world :=
  make (Ret 1) (Ret 0) ok ok (Exc denied) (Ret tmp_stem) ok ok ok (Ret 0) ok.


(** No tool, no weasyprint; the script runs and exits with [rc]. *)
Definition script_exits (rc : Z) : world :=
  make (Ret 1) (Ret 0) (Exc no_weasyprint) ok ok (Ret tmp_stem) ok ok ok
    (Ret rc) ok.

(** No tool, no weasyprint; the kernel refuses to execute the script
    (it has no interpreter line). *)
Definition script_not_executable : world :=
  make (Ret 1) (Ret 0) (Exc no_weasyprint) ok ok (Ret tmp_stem) ok ok ok
    (Exc exec_format) ok.

(** No tool, no weasyprint; the user interrupts the script. *)
Definition script_interrupted : world :=
  make (Ret 1) (Ret 0) (Exc no_weasyprint) ok ok (Ret tmp_stem) ok ok ok
    (Exc interrupt) ok.

(** The probe itself cannot be started. *)
Definition no_which : Exn.t :=
  Exn.mk Exn.FileNotFoundError "[Errno 2] No such file or directory: 'which'".
Definition probe_fails : world :=
  make (Exc no_which)
    (Ret 0) (Exc no_weasyprint) ok ok (Ret tmp_stem) ok ok ok (Ret 0) ok.

(** No tool, no weasyprint; the disk is full when the script is written. *)
Definition disk_full : Exn.t :=
  Exn.mk Exn.OSError "[Errno 28] No space left on device".
Definition write_fails : world :=
  make (Ret 1) (Ret 0) (Exc no_weasyprint) ok ok (Ret tmp_stem)
    (Exc disk_full) ok ok (Ret 0) ok.

(** No tool, no weasyprint; the script runs, and the file cannot be
    deleted. *)
Definition unlink_denied : Exn.t :=
  Exn.mk Exn.PermissionError
    "[Errno 1] Operation not permitted: '/tmp/tmpk3v9x0qa.sh'".
Definition unlink_fails : world :=
  make (Ret 1) (Ret 0) (Exc no_weasyprint) ok ok (Ret tmp_stem) ok ok ok
    (Ret 0) (Exc unlink_denied).

(** No tool, no weasyprint, and [shutil] cannot be imported either. *)
Definition no_shutil_module : Exn.t :=
  Exn.mk Exn.ModuleNotFoundError "No module named 'shutil'".
Definition no_shutil : world :=
  {| subprocess_run argv :=
       match argv with
       | cmd :: _ => if String.eqb cmd "which" then Ret 1 else Ret 0
       | [] => Ret 0
       end;
     import_module m :=
       if String.eqb m "weasyprint" then Exc no_weasyprint
       else if String.eqb m "shutil" then Exc no_shutil_module
       else Ret tt;
     weasyprint_HTML _ := ok;
     write_pdf _ := ok;
     NamedTemporaryFile _ := Ret tmp_stem;
     file_write _ _ := ok;
     file_close _ := ok;
     os_chmod _ _ := ok;
     os_unlink _ := ok |}.

End Worlds.

(** ** Facts about strings *)

Module StrFacts.
Import Str.

Lemma append_assoc (a b c : string) : (a ++ b) ++ c = a ++ b ++ c.
Proof.
  induction a as [|x a IH]; simpl; [reflexivity | now rewrite IH].
Qed.

Lemma append_nil_r (a : string) : a ++ EmptyString = a.
Proof.
  induction a as [|x a IH]; simpl; [reflexivity | now rewrite IH].
Qed.

Lemma starts_with_append (p s : string) : starts_with p (p ++ s) = true.
Proof.
  induction p as [|x p IH]; simpl; [reflexivity|].
  now rewrite Ascii.eqb_refl, IH.
Qed.

Lemma starts_with_split (p s : string) :
  starts_with p s = true -> exists post, s = p ++ post.
Proof.
  revert s; induction p as [|x p IH]; intros s H.
  - now exists s.
  - destruct s as [|y s]; simpl in H; [discriminate|].
    apply andb_true_iff in H as [Hxy Hp].
    apply Ascii.eqb_eq in Hxy; subst y.
    destruct (IH s Hp) as [post ->].
    now exists post.
Qed.

Lemma is_infix_here (p s : string) :
  starts_with p s = true -> is_infix p s = true.
Proof. intros H. destruct s; simpl; now rewrite H. Qed.

(** The boolean test decides [Infix]. *)
Lemma is_infix_spec (p s : string) : is_infix p s = true <-> Infix p s.
Proof.
  split.
  - induction s as [|y s IH]; simpl; intros H.
    + rewrite orb_false_r in H.
      destruct (starts_with_split _ _ H) as [post E].
      exists EmptyString, post. exact E.
    + apply orb_true_iff in H as [H|H].
      * destruct (starts_with_split _ _ H) as [post E].
        exists EmptyString, post. exact E.
      * destruct (IH H) as (pre & post & ->).
        now exists (String y pre), post.
  - intros (pre & post & ->).
    induction pre as [|y pre IH]; simpl.
    + apply is_infix_here, starts_with_append.
    + now rewrite IH, orb_true_r.
Qed.

Lemma Infix_refl (p : string) : Infix p p.
Proof.
  exists EmptyString, EmptyString. simpl. now rewrite append_nil_r.
Qed.

Lemma Infix_append_r (p a b : string) : Infix p b -> Infix p (a ++ b).
Proof.
  intros (pre & post & ->). exists (a ++ pre), post.
  now rewrite append_assoc.
Qed.

Lemma Infix_append_l (p a b : string) : Infix p a -> Infix p (a ++ b).
Proof.
  intros (pre & post & ->). exists pre, (post ++ b).
  now rewrite !append_assoc.
Qed.

(** A printed line is part of standard output. *)
Lemma Infix_unlines (p l : string) (ls : list string) :
  In l ls -> Infix p l -> Infix p (unlines ls).
Proof.
  induction ls as [|l' ls IH]; cbn [unlines In]; [tauto|].
  intros [->|Hin] Hp.
  - now apply Infix_append_l.
  - apply Infix_append_r, Infix_append_r. now apply IH.
Qed.

Lemma last_append (a b : string) :
  b <> EmptyString -> last (a ++ b) = last b.
Proof.
  intros Hb. induction a as [|x a IH]; [reflexivity|].
  simpl. rewrite IH. destruct (a ++ b) eqn:E; [|reflexivity].
  destruct a; simpl in E; [contradiction | discriminate].
Qed.

End StrFacts.

(** ** Facts about the exception classes *)

Module ExnFacts.
Import Exn.

Lemma cls_eqb_eq (a b : cls) : cls_eqb a b = true <-> a = b.
Proof. destruct a, b; simpl; split; congruence. Qed.

(** Four steps reach the root from every class, so the fuel of
    [issubclass] never runs out: more fuel changes nothing. *)
Lemma issubclass_fuel_enough (n : nat) (c d : cls) :
  issubclass_fuel (4 + n) c d = issubclass c d.
Proof. destruct c, d; destruct n; reflexivity. Qed.

(** An [ImportError] is an [Exception]; an interrupt is not. *)
Lemma ImportError_is_Exception (e : t) :
  isinstance e ImportError = true -> isinstance e Exception = true.
Proof. unfold isinstance. destruct (class_of e); cbv; congruence. Qed.

Lemma everything_is_BaseException (e : t) :
  isinstance e BaseException = true.
Proof. unfold isinstance. destruct (class_of e); reflexivity. Qed.

End ExnFacts.

(** ** Symbolic execution *)

(** Unfold the program down to the calls into the world, then split on what
    each call does. *)
Ltac unfold_program :=
  cbv [html_to_pdf attempt_A attempt_A_body attempt_B attempt_B_body
       attempt_C attempt_C_body write_script with_file report_failure
       try_except bind call run import print pass return_ pure
       events runs_B runs_C falls_through call_result exit_status
       probe tool which_argv tool_argv which_event tool_event
       fst snd andb] in *.

Ltac split_on_world :=
  repeat match goal with
    | H : ?o = _ |- context [match ?o with _ => _ end] => rewrite H
    | |- context [match ?o with Ret _ => _ | Exc _ => _ end] =>
        destruct o eqn:?
    | |- context [if ?b then _ else _] => destruct b eqn:?
    end.

Ltac execute := unfold_program; split_on_world.

(** ** How the attempts chain *)

Section Chain.

Variable w : world.

Lemma bind_next {A B} (m : M A) (k : A -> M B) (a : A) :
  snd m = Next a ->
  bind m k = ((fst m ++ fst (k a))%list, snd (k a)).
Proof.
  destruct m as [t r]; simpl; intros ->. now destruct (k a).
Qed.

Lemma falls_through_next (m : M unit) :
  falls_through m = true -> snd m = Next tt.
Proof.
  unfold falls_through. destruct (snd m) as [[]| |]; congruence.
Qed.

Lemma try_except_caught (body : M unit) catches handler (e : Exn.t) :
  snd body = Raise e -> catches e = true ->
  try_except body catches handler =
    ((fst body ++ fst (handler e))%list, snd (handler e)).
Proof.
  destruct body as [t r]; simpl; intros -> ->. now destruct (handler e).
Qed.

Lemma try_except_missed (body : M unit) catches handler (e : Exn.t) :
  snd body = Raise e -> catches e = false ->
  try_except body catches handler = body.
Proof. destruct body as [t r]; simpl; intros -> ->. reflexivity. Qed.


(** The handler of the third [try] prints its six lines and ends. *)
Lemma report_failure_run (e : Exn.t) :
  report_failure e =
    ([PrintLine ("All PDF conversion methods failed: " ++ Exn.str e);
      PrintLine (Str.nl ++ "Alternative solutions:");
      PrintLine
        "1. Open the HTML file in a browser and use Print > Save as PDF";
      PrintLine "2. Install pandoc: brew install pandoc";
      PrintLine "3. Install wkhtmltopdf: brew install wkhtmltopdf";
      PrintLine (Str.nl ++ "HTML file is available at: " ++ html_file)],
     Next tt).
Proof. reflexivity. Qed.

(** The body of the second [try] ends in [return] or in an exception. *)
Lemma attempt_B_body_no_next (a : unit) : snd (attempt_B_body w) <> Next a.
Proof. execute; discriminate. Qed.


(** Its only [print] is its last statement. *)
Lemma attempt_C_body_raise_silent (e : Exn.t) :
  snd (attempt_C_body w) = Raise e ->
  printed_of (fst (attempt_C_body w)) = [].
Proof. execute; intros; (reflexivity || discriminate). Qed.

(** The first [try] never lets an exception out. *)
Lemma attempt_A_no_raise (e : Exn.t) : snd (attempt_A w) <> Raise e.
Proof. execute; discriminate. Qed.

(** An attempt that falls through has printed nothing. *)
Lemma attempt_A_silent :
  runs_B w = true -> printed_of (fst (attempt_A w)) = [].
Proof. execute; intros; (reflexivity || discriminate). Qed.

Lemma attempt_B_silent :
  falls_through (attempt_B w) = true -> printed_of (fst (attempt_B w)) = [].
Proof. execute; intros; (reflexivity || discriminate). Qed.

(** The trace of a run that reaches the second and the third [try]. *)
Lemma html_to_pdf_when_B :
  runs_B w = true ->
  html_to_pdf w =
    ((fst (attempt_A w) ++ fst (attempt_B w ;; attempt_C w))%list,
     snd (attempt_B w ;; attempt_C w)).
Proof.
  intros H. apply falls_through_next in H.
  unfold html_to_pdf. now rewrite (bind_next _ _ tt H).
Qed.

Lemma html_to_pdf_when_C :
  runs_C w = true ->
  html_to_pdf w =
    ((fst (attempt_A w) ++ fst (attempt_B w) ++ fst (attempt_C w))%list,
     snd (attempt_C w)).
Proof.
  unfold runs_C. intros H. apply andb_true_iff in H as [HB HC].
  rewrite (html_to_pdf_when_B HB).
  apply falls_through_next in HC.
  now rewrite (bind_next _ _ tt HC).
Qed.

Lemma printed_of_app (t u : trace) :
  printed_of (t ++ u)%list = (printed_of t ++ printed_of u)%list.
Proof. apply flat_map_app. Qed.

(** What a run that reaches the third [try] prints, that [try] prints. *)
Lemma printed_when_C :
  runs_C w = true ->
  printed_of (events w) = printed_of (fst (attempt_C w)).
Proof.
  intros H. unfold events. rewrite (html_to_pdf_when_C H).
  cbn [fst]. rewrite !printed_of_app.
  unfold runs_C in H. apply andb_true_iff in H as [HB HC].
  now rewrite (attempt_A_silent HB), (attempt_B_silent HC).
Qed.

End Chain.

(** ** Attempt A: the command-line tool *)

Section AttemptA.

Variable w : world.

(** C10.  An exception raised inside the first [try], by the probe or by
    the tool after a positive probe, is swallowed by the bare [except]:
    the attempt ends normally having printed nothing, and the run goes on
    with the second [try]. *)
Theorem attempt_A_swallows (e : Exn.t) :
  probe w = Exc e \/ (probe w = Ret 0 /\ tool w = Exc e) ->
  snd (attempt_A_body w) = Raise e /\
  snd (attempt_A w) = Next tt /\
  printed_of (fst (attempt_A w)) = [] /\
  runs_B w = true /\
  html_to_pdf w =
    ((fst (attempt_A w) ++ fst (attempt_B w ;; attempt_C w))%list,
     snd (attempt_B w ;; attempt_C w)).
Proof.
  intros H.
  assert (HA : snd (attempt_A_body w) = Raise e /\
               snd (attempt_A w) = Next tt /\
               printed_of (fst (attempt_A w)) = []).
  { destruct H as [H | [H1 H2]]; unfold_program.
    - rewrite H. cbn. auto.
    - rewrite H1. cbn. rewrite H2. cbn. auto. }
  destruct HA as (Hbody & Hnext & Hprint).
  assert (HB : runs_B w = true)
    by (unfold runs_B, falls_through; now rewrite Hnext).
  repeat split; try assumption.
  now apply html_to_pdf_when_B.
Qed.

(** C7.  After a positive probe the tool is started, its exit status is
    looked at by nothing, the success line naming the PDF is printed and
    the function returns: the run is the same for every exit status. *)
Theorem tool_status_ignored (rc : Z) :
  probe w = Ret 0 -> tool w = Ret rc ->
  events w =
    [which_event; tool_event;
     PrintLine ("PDF created using wkhtmltopdf: " ++ pdf_file)] /\
  snd (html_to_pdf w) = Return /\
  printed_of (events w) = ["PDF created using wkhtmltopdf: " ++ pdf_file].
Proof.
  intros H1 H2. unfold_program. rewrite H1. cbn. rewrite H2. cbn. auto.
Qed.


End AttemptA.

(** ** Attempt B: the rendering library *)

Section AttemptB.

Variable w : world.

(** C4.  An exception of the second [try] that is not an [ImportError]
    (from the import, from building the document or from rendering it) is
    handled nowhere: the call of the function ends with that exception,
    the third [try] is not entered, and nothing runs after the call that
    raised. *)
Theorem render_fault_propagates (e : Exn.t) :
  runs_B w = true ->
  snd (attempt_B_body w) = Raise e ->
  Exn.isinstance e Exn.ImportError = false ->
  call_result (html_to_pdf w) = Exc e /\
  runs_C w = false /\
  events w = (fst (attempt_A w) ++ fst (attempt_B_body w))%list /\
  exit_status w <> 0.
Proof.
  intros HB Hbody Hcls.
  assert (HBr : attempt_B w = (fst (attempt_B_body w), Raise e)).
  { unfold attempt_B, try_except.
    destruct (attempt_B_body w) as [t r]; simpl in *; subst r.
    now rewrite Hcls. }
  assert (Hrun : html_to_pdf w =
                 ((fst (attempt_A w) ++ fst (attempt_B_body w))%list,
                  Raise e)).
  { rewrite (html_to_pdf_when_B w HB). unfold bind at 1 2. now rewrite HBr. }
  unfold runs_C, falls_through, exit_status, call_result, events.
  rewrite Hrun, HBr, HB. cbn [fst snd andb].
  repeat split; try reflexivity.
  destruct (Exn.isinstance e Exn.KeyboardInterrupt); discriminate.
Qed.

(** C5, as amended.  With a negative probe and the library importable,
    the document is built exactly once from the fixed HTML path; when that
    returns, [write_pdf] is called exactly once with the fixed PDF path;
    and when that returns too, the function prints its success line and
    returns without entering the third [try]. *)
Theorem library_renders_once (rc : Z) :
  probe w = Ret rc -> rc <> 0 ->
  import_module w "weasyprint" = Ret tt ->
  weasyprint_HTML w html_file = Ret tt ->
  write_pdf w pdf_file = Ret tt ->
  events w =
    [which_event; ImportModule "weasyprint"; WeasyHTML html_file;
     WritePdf pdf_file;
     PrintLine ("PDF created using WeasyPrint: " ++ pdf_file)] /\
  call_result (html_to_pdf w) = Ret tt /\
  runs_C w = false.
Proof.
  intros Hp Hrc Hi Hh Hw.
  apply Z.eqb_neq in Hrc.
  unfold_program. rewrite Hp. cbv beta iota. rewrite Hrc.
  cbv beta iota. rewrite Hi. cbv beta iota. rewrite Hh.
  cbv beta iota. rewrite Hw. cbv beta iota. auto.
Qed.

End AttemptB.

(** ** Attempt C: the browser fallback *)

Section AttemptC.

Variable w : world.

(** The life of the temporary script when its run returns.  When the third
    [try] is entered, the temporary file can be created, written, closed
    and made executable, and the script's run returns, whatever the exit
    status, the calls are, in this order and once each: create, write,
    close, chmod 0o755, run, unlink. *)
Theorem script_lifecycle (stem : string) (rc : Z) :
  runs_C w = true ->
  import_module w "tempfile" = Ret tt ->
  import_module w "shutil" = Ret tt ->
  NamedTemporaryFile w ".sh" = Ret stem ->
  file_write w (stem ++ ".sh") script = Ret tt ->
  file_close w (stem ++ ".sh") = Ret tt ->
  os_chmod w (stem ++ ".sh") 493 = Ret tt ->
  subprocess_run w [stem ++ ".sh"] = Ret rc ->
  calls_of (fst (attempt_C w)) =
    [ImportModule "tempfile"; ImportModule "shutil";
     TempCreate "w" ".sh" false;
     FileWrite (stem ++ ".sh") script;
     FileClose (stem ++ ".sh");
     Chmod (stem ++ ".sh") 493;
     SubprocessRun [stem ++ ".sh"] false;
     Unlink (stem ++ ".sh")] /\
  events w =
    (fst (attempt_A w) ++ fst (attempt_B w) ++ fst (attempt_C w))%list.
Proof.
  intros HC H1 H2 H3 H4 H5 H6 H7. split.
  - unfold_program.
    rewrite H1; cbv beta iota. rewrite H2; cbv beta iota.
    rewrite H3; cbv beta iota. rewrite H4, H5; cbv beta iota.
    rewrite H6; cbv beta iota. rewrite H7; cbv beta iota.
    destruct (os_unlink w (stem ++ ".sh")) as [[]|e]; cbv beta iota.
    + reflexivity.
    + destruct (Exn.isinstance e Exn.Exception); reflexivity.
  - unfold events. now rewrite (html_to_pdf_when_C w HC).
Qed.

(** C6, as amended.  An exception of the third [try] that is an
    [Exception] is caught: the function ends normally, and standard output
    holds the line "All PDF conversion methods failed", the three numbered
    hints and the HTML path. *)
Theorem fallback_failure_reported (e : Exn.t) :
  runs_C w = true ->
  snd (attempt_C_body w) = Raise e ->
  Exn.isinstance e Exn.Exception = true ->
  call_result (html_to_pdf w) = Ret tt /\
  exit_status w = 0 /\
  printed_of (events w) =
    ["All PDF conversion methods failed: " ++ Exn.str e;
     Str.nl ++ "Alternative solutions:";
     "1. Open the HTML file in a browser and use Print > Save as PDF";
     "2. Install pandoc: brew install pandoc";
     "3. Install wkhtmltopdf: brew install wkhtmltopdf";
     Str.nl ++ "HTML file is available at: " ++ html_file] /\
  Str.Infix "All PDF conversion methods failed" (stdout w) /\
  Str.Infix "1. Open the HTML file in a browser and use Print > Save as PDF"
    (stdout w) /\
  Str.Infix "2. Install pandoc: brew install pandoc" (stdout w) /\
  Str.Infix "3. Install wkhtmltopdf: brew install wkhtmltopdf" (stdout w) /\
  Str.Infix html_file (stdout w).
Proof.
  intros HC Hbody Hcls.
  assert (HCr : attempt_C w =
                ((fst (attempt_C_body w) ++ fst (report_failure e))%list,
                 Next tt)).
  { unfold attempt_C.
    now rewrite (try_except_caught _ _ _ e Hbody Hcls), report_failure_run. }
  assert (Hres : snd (html_to_pdf w) = Next tt)
    by now rewrite (html_to_pdf_when_C w HC), HCr.
  assert (Hout : printed_of (events w) =
                 printed_of (fst (report_failure e))).
  { rewrite (printed_when_C w HC), HCr. cbn [fst].
    now rewrite printed_of_app, (attempt_C_body_raise_silent w e Hbody). }
  unfold exit_status, call_result, stdout. rewrite Hres, Hout.
  rewrite report_failure_run. cbn [fst printed_of flat_map app].
  repeat split.
  - eapply StrFacts.Infix_unlines; [left; reflexivity|].
    apply StrFacts.Infix_append_l with (b := ": " ++ Exn.str e)
      (a := "All PDF conversion methods failed").
    apply StrFacts.Infix_refl.
  - eapply StrFacts.Infix_unlines;
      [right; right; left; reflexivity | apply StrFacts.Infix_refl].
  - eapply StrFacts.Infix_unlines;
      [do 3 right; left; reflexivity | apply StrFacts.Infix_refl].
  - eapply StrFacts.Infix_unlines;
      [do 4 right; left; reflexivity | apply StrFacts.Infix_refl].
  - eapply StrFacts.Infix_unlines; [do 5 right; left; reflexivity|].
    do 2 apply StrFacts.Infix_append_r. apply StrFacts.Infix_refl.
Qed.

(** A name ending in ".sh" is not the PDF path. *)
Lemma script_path_not_pdf (stem : string) :
  String.eqb pdf_file (stem ++ ".sh") = false.
Proof.
  apply String.eqb_neq. intros E.
  apply (f_equal Str.last) in E.
  rewrite StrFacts.last_append in E by discriminate.
  vm_compute in E. discriminate.
Qed.


(** C9.  The third [try] has nothing to do with the PDF path: no call it
    makes has that path as its file, the script does not contain it (it
    contains the HTML path), a line it prints contains it only where the
    text of a caught exception does, and the line printed when the attempt
    completes points to the Downloads folder and does not contain it
    either. *)
Theorem fallback_ignores_pdf_path :
  forallb (fun ev => negb (targets pdf_file ev)) (fst (attempt_C w)) = true /\
  ~ Str.Infix pdf_file script /\
  Str.Infix html_file script /\
  (forall l, In l (printed_of (fst (attempt_C w))) ->
     Str.Infix pdf_file l ->
     exists e, snd (attempt_C_body w) = Raise e /\
               Str.Infix pdf_file (Exn.str e)) /\
  forall a, snd (attempt_C_body w) = Next a ->
    printed_of (fst (attempt_C w)) =
      ["Attempted to print via Safari - check your Downloads folder for the PDF"] /\
    Str.Infix "Downloads"
      "Attempted to print via Safari - check your Downloads folder for the PDF" /\
    ~ Str.Infix pdf_file
      "Attempted to print via Safari - check your Downloads folder for the PDF".
Proof.
  split; [|split; [|split; [|split]]].
  - execute; cbn [app forallb targets existsb negb andb orb];
      rewrite ?script_path_not_pdf; reflexivity.
  - intros H. apply StrFacts.is_infix_spec in H. vm_compute in H.
    discriminate.
  - apply StrFacts.is_infix_spec. vm_compute. reflexivity.
  - intros l Hin Hpdf. apply StrFacts.is_infix_spec in Hpdf.
    revert Hin Hpdf. execute; cbn [app printed_of flat_map In];
      intros Hin Hpdf;
      repeat (destruct Hin as [<-|Hin]; [|]); try contradiction;
      try (vm_compute in Hpdf; discriminate);
      eexists; (split; [reflexivity|]);
      apply StrFacts.is_infix_spec; exact Hpdf.
  - intros a Ha. split; [|split].
    + revert Ha. execute; intros; (reflexivity || discriminate).
    + apply StrFacts.is_infix_spec. vm_compute. reflexivity.
    + intros H. apply StrFacts.is_infix_spec in H. vm_compute in H.
      discriminate.
Qed.

End AttemptC.

(** ** The whole run *)

Section Run.

Variable w : world.


End Run.

(** ** Further properties of the run *)

Section Further.

Variable w : world.


(** The trace of a run is the trace of the first [try], then that of the
    second if it is entered, then that of the third if it is entered. *)
Lemma events_split :
  events w =
    (fst (attempt_A w) ++
     if runs_B w
     then fst (attempt_B w) ++
          (if falls_through (attempt_B w) then fst (attempt_C w) else [])
     else [])%list.
Proof.
  unfold events.
  destruct (runs_B w) eqn:HB.
  - destruct (falls_through (attempt_B w)) eqn:HC.
    + rewrite html_to_pdf_when_C by (unfold runs_C; now rewrite HB, HC).
      reflexivity.
    + rewrite (html_to_pdf_when_B w HB). cbn [fst]. f_equal.
      unfold falls_through in HC. unfold bind.
      destruct (attempt_B w) as [t [a| |e]]; cbn [fst snd] in *;
        try discriminate; now rewrite app_nil_r.
  - unfold runs_B, falls_through in HB. unfold html_to_pdf, bind at 1.
    destruct (attempt_A w) as [t [a| |e]]; cbn [fst snd] in *;
      try discriminate; now rewrite app_nil_r.
Qed.

(** How the run ends is how the last [try] entered ends. *)
Lemma result_split :
  snd (html_to_pdf w) =
    if runs_B w
    then if falls_through (attempt_B w) then snd (attempt_C w)
         else snd (attempt_B w)
    else Return.
Proof.
  destruct (runs_B w) eqn:HB.
  - destruct (falls_through (attempt_B w)) eqn:HC.
    + rewrite html_to_pdf_when_C by (unfold runs_C; now rewrite HB, HC).
      reflexivity.
    + rewrite (html_to_pdf_when_B w HB). cbn [snd].
      unfold falls_through in HC. unfold bind.
      destruct (attempt_B w) as [t [a| |e]]; cbn [fst snd] in *;
        try discriminate; reflexivity.
  - pose proof (attempt_A_no_raise w) as HA.
    unfold runs_B, falls_through in HB. unfold html_to_pdf, bind at 1.
    destruct (attempt_A w) as [t [a| |e]]; cbn [fst snd] in *;
      try discriminate; try reflexivity.
    now destruct (HA e).
Qed.

(** The events each [try] can produce. *)
Lemma attempt_A_events (ev : event) :
  In ev (fst (attempt_A w)) ->
  ev = which_event \/
  (ev = tool_event /\ probe w = Ret 0) \/
  (ev = PrintLine ("PDF created using wkhtmltopdf: " ++ pdf_file) /\
   runs_B w = false).
Proof.
  execute; cbn [app In]; intros H;
    try (apply Z.eqb_eq in Heqb; subst);
    repeat (destruct H as [<-|H]; [auto|]); contradiction.
Qed.

Lemma attempt_B_events (ev : event) :
  In ev (fst (attempt_B w)) ->
  ev = ImportModule "weasyprint" \/
  (ev = WeasyHTML html_file /\ import_module w "weasyprint" = Ret tt) \/
  (ev = WritePdf pdf_file /\ weasyprint_HTML w html_file = Ret tt) \/
  (ev = PrintLine ("PDF created using WeasyPrint: " ++ pdf_file) /\
   falls_through (attempt_B w) = false).
Proof.
  execute; cbn [app In]; intros H;
    repeat match goal with u : unit |- _ => destruct u end;
    repeat (destruct H as [<-|H]; [auto 6|]); contradiction.
Qed.

Lemma attempt_C_events (ev : event) :
  In ev (fst (attempt_C w)) ->
  ev = ImportModule "tempfile" \/
  ev = ImportModule "shutil" \/
  ev = TempCreate "w" ".sh" false \/
  (exists stem,
     NamedTemporaryFile w ".sh" = Ret stem /\
     (ev = FileWrite (stem ++ ".sh") script \/
      ev = FileClose (stem ++ ".sh") \/
      ev = Chmod (stem ++ ".sh") 493 \/
      ev = SubprocessRun [stem ++ ".sh"] false \/
      ev = Unlink (stem ++ ".sh"))) \/
  (exists l, ev = PrintLine l).
Proof.
  execute; cbn [app In]; intros H;
    repeat (destruct H as [<-|H]; [eauto 12|]); contradiction.
Qed.


(** X1.  Every run starts with the probe [which wkhtmltopdf], and the probe
    is not run again. *)
Theorem probe_first_and_once :
  exists t, events w = which_event :: t /\ runs_of which_argv t = [].
Proof.
  assert (HA : exists tA, fst (attempt_A w) = which_event :: tA /\
                          runs_of which_argv tA = []).
  { execute; cbn [app]; eexists; (split; [reflexivity|]); reflexivity. }
  assert (HB : runs_of which_argv (fst (attempt_B w)) = [])
    by (execute; reflexivity).
  assert (HC : runs_of which_argv (fst (attempt_C w)) = [])
    by (execute; reflexivity).
  destruct HA as (tA & EA & HA).
  rewrite events_split, EA. eexists. split; [reflexivity|].
  unfold runs_of in *. rewrite filter_app, HA.
  destruct (runs_B w); [|reflexivity].
  rewrite filter_app, HB.
  destruct (falls_through (attempt_B w)); [exact HC | reflexivity].
Qed.

(** X2.  wkhtmltopdf is started exactly when the probe returned status 0:
    not after a non-zero status, and not when the probe raised. *)
Theorem tool_started_iff_probe_positive :
  In tool_event (events w) <-> probe w = Ret 0.
Proof.
  split.
  - rewrite events_split. intros H.
    apply in_app_or in H as [H|H].
    + apply attempt_A_events in H as [H|[[_ H]|[H _]]];
        [discriminate H | exact H | discriminate H].
    + destruct (runs_B w); [|contradiction].
      apply in_app_or in H as [H|H].
      * apply attempt_B_events in H as [H|[[H _]|[[H _]|[H _]]]];
          discriminate H.
      * destruct (falls_through (attempt_B w)); [|contradiction].
        apply attempt_C_events in H
          as [H|[H|[H|[(stem & _ & [H|[H|[H|[H|H]]]])|[l H]]]]];
          discriminate H.
  - intros H. rewrite events_split. apply in_or_app. left.
    unfold_program. rewrite H. cbv beta iota. cbn [Z.eqb].
    split_on_world; cbn [app In]; auto.
Qed.


(** X4.  The third [try] is entered exactly when the second was entered and
    raised an [ImportError] (or a subclass), from the import or from any
    later call of the library. *)
Theorem attempt_C_runs_iff_ImportError :
  runs_C w = true <->
  runs_B w = true /\
  exists e, snd (attempt_B_body w) = Raise e /\
            Exn.isinstance e Exn.ImportError = true.
Proof.
  unfold runs_C. rewrite andb_true_iff.
  apply and_iff_compat_l.
  pose proof (attempt_B_body_no_next w) as Hnn.
  unfold attempt_B, try_except, falls_through, pass, pure.
  destruct (attempt_B_body w) as [t [a| |e]]; cbn [snd] in *.
  - now destruct (Hnn a).
  - split; [discriminate|]. intros (e & H & _). discriminate H.
  - destruct (Exn.isinstance e Exn.ImportError) eqn:He; cbn [snd].
    + split; [eauto | reflexivity].
    + split; [discriminate|]. intros (e' & H & He').
      injection H as <-. congruence.
Qed.


(** What each [try] prints, by the way it ends. *)
Lemma attempt_A_report :
  runs_B w = false ->
  printed_of (fst (attempt_A w)) =
    ["PDF created using wkhtmltopdf: " ++ pdf_file].
Proof. execute; intros H; (discriminate H || reflexivity). Qed.

Lemma attempt_B_report :
  falls_through (attempt_B w) = false ->
  (snd (attempt_B w) = Return /\
   printed_of (fst (attempt_B w)) =
     ["PDF created using WeasyPrint: " ++ pdf_file]) \/
  (exists e, snd (attempt_B w) = Raise e /\
             printed_of (fst (attempt_B w)) = []).
Proof.
  execute; intros H; try discriminate H; cbn [app printed_of flat_map];
    eauto.
Qed.

Lemma attempt_C_report :
  (snd (attempt_C w) = Next tt /\
   (printed_of (fst (attempt_C w)) =
      ["Attempted to print via Safari - check your Downloads folder for the PDF"] \/
    exists e, printed_of (fst (attempt_C w)) =
                printed_of (fst (report_failure e)))) \/
  (exists e, snd (attempt_C w) = Raise e /\
             printed_of (fst (attempt_C w)) = []).
Proof.
  execute; cbn [app printed_of flat_map];
    repeat match goal with u : unit |- _ => destruct u end; eauto 6.
Qed.

(** X7.  A run that an exception leaves has printed nothing; a run that ends
    normally has printed exactly one report: one of the three success
    lines, or the six lines of the failure report. *)
Theorem one_report_or_none :
  (exists e, call_result (html_to_pdf w) = Exc e /\
             printed_of (events w) = []) \/
  (call_result (html_to_pdf w) = Ret tt /\
   (printed_of (events w) =
      ["PDF created using wkhtmltopdf: " ++ pdf_file] \/
    printed_of (events w) =
      ["PDF created using WeasyPrint: " ++ pdf_file] \/
    printed_of (events w) =
      ["Attempted to print via Safari - check your Downloads folder for the PDF"] \/
    exists e,
      printed_of (events w) =
        ["All PDF conversion methods failed: " ++ Exn.str e;
         Str.nl ++ "Alternative solutions:";
         "1. Open the HTML file in a browser and use Print > Save as PDF";
         "2. Install pandoc: brew install pandoc";
         "3. Install wkhtmltopdf: brew install wkhtmltopdf";
         Str.nl ++ "HTML file is available at: " ++ html_file])).
Proof.
  unfold call_result. rewrite result_split, events_split, printed_of_app.
  destruct (runs_B w) eqn:HB.
  - rewrite (attempt_A_silent w HB), printed_of_app. cbn [app].
    destruct (falls_through (attempt_B w)) eqn:HBf.
    + rewrite (attempt_B_silent w HBf). cbn [app].
      destruct attempt_C_report as [(-> & [->| [e ->]])|(e & -> & ->)].
      * right. auto.
      * right. split; [reflexivity|]. do 3 right. exists e. reflexivity.
      * left. eauto.
    + rewrite app_nil_r.
      destruct (attempt_B_report HBf) as [(-> & ->)|(e & -> & ->)].
      * right. auto.
      * left. eauto.
  - rewrite app_nil_r, (attempt_A_report HB). right. auto.
Qed.

(** X8.  Once the temporary file is created it is written and then closed,
    whatever the write does, and it is closed only once. *)
Theorem temp_file_closed_after_write (stem : string) :
  import_module w "tempfile" = Ret tt ->
  import_module w "shutil" = Ret tt ->
  NamedTemporaryFile w ".sh" = Ret stem ->
  exists t,
    fst (attempt_C w) =
      ([ImportModule "tempfile"; ImportModule "shutil";
        TempCreate "w" ".sh" false;
        FileWrite (stem ++ ".sh") script;
        FileClose (stem ++ ".sh")] ++ t)%list /\
    forall path, ~ In (FileClose path) t.
Proof.
  intros H1 H2 H3. unfold_program.
  rewrite H1; cbv beta iota. rewrite H2; cbv beta iota.
  rewrite H3; cbv beta iota.
  split_on_world; cbn [app]; eexists; (split; [reflexivity|]);
    intros path H; cbn [In] in H;
    repeat (destruct H as [H|H]; [discriminate H|]); contradiction.
Qed.

(** X9.  When writing or closing the temporary file raises, nothing more is
    called: the file is neither made executable, nor run, nor deleted. *)
Theorem temp_file_left_when_write_fails (stem : string) (e : Exn.t) :
  import_module w "tempfile" = Ret tt ->
  import_module w "shutil" = Ret tt ->
  NamedTemporaryFile w ".sh" = Ret stem ->
  file_write w (stem ++ ".sh") script = Exc e \/
  file_close w (stem ++ ".sh") = Exc e ->
  calls_of (fst (attempt_C w)) =
    [ImportModule "tempfile"; ImportModule "shutil";
     TempCreate "w" ".sh" false;
     FileWrite (stem ++ ".sh") script;
     FileClose (stem ++ ".sh")].
Proof.
  intros H1 H2 H3 H4. unfold_program.
  rewrite H1; cbv beta iota. rewrite H2; cbv beta iota.
  rewrite H3; cbv beta iota.
  destruct H4 as [H4|H4]; rewrite H4; cbv beta iota;
    split_on_world; reflexivity.
Qed.

(** The third [try] reaches its [os.unlink] only through every statement
    before it. *)
Lemma unlink_in_attempt_C (p : string) :
  In (Unlink p) (fst (attempt_C w)) ->
  exists stem rc,
    NamedTemporaryFile w ".sh" = Ret stem /\ p = stem ++ ".sh" /\
    file_write w p script = Ret tt /\ file_close w p = Ret tt /\
    os_chmod w p 493 = Ret tt /\ subprocess_run w [p] = Ret rc.
Proof.
  execute; cbn [app In]; intros H;
    repeat (destruct H as [H|H]; [try discriminate H|]);
    try contradiction;
    injection H as <-;
    repeat match goal with u : unit |- _ => destruct u end;
    eauto 10.
Qed.

(** X10.  The only file a run deletes is the temporary script it created,
    and only after writing, closing, chmod and the script's run have all
    returned. *)
Theorem unlink_only_after_script_returned (p : string) :
  In (Unlink p) (events w) ->
  exists stem rc,
    NamedTemporaryFile w ".sh" = Ret stem /\ p = stem ++ ".sh" /\
    file_write w p script = Ret tt /\ file_close w p = Ret tt /\
    os_chmod w p 493 = Ret tt /\ subprocess_run w [p] = Ret rc.
Proof.
  rewrite events_split. intros H.
  apply in_app_or in H as [H|H].
  - apply attempt_A_events in H as [H|[[H _]|[H _]]]; discriminate H.
  - destruct (runs_B w); [|contradiction].
    apply in_app_or in H as [H|H].
    + apply attempt_B_events in H as [H|[[H _]|[[H _]|[H _]]]];
        discriminate H.
    + destruct (falls_through (attempt_B w)); [|contradiction].
      now apply unlink_in_attempt_C.
Qed.

(** X11.  When every step of the third [try] returns, the run prints the
    Safari line alone and ends normally, whatever the exit status of the
    script. *)
Theorem fallback_reports_attempt_whatever_status (stem : string) (rc : Z) :
  runs_C w = true ->
  import_module w "tempfile" = Ret tt ->
  import_module w "shutil" = Ret tt ->
  NamedTemporaryFile w ".sh" = Ret stem ->
  file_write w (stem ++ ".sh") script = Ret tt ->
  file_close w (stem ++ ".sh") = Ret tt ->
  os_chmod w (stem ++ ".sh") 493 = Ret tt ->
  subprocess_run w [stem ++ ".sh"] = Ret rc ->
  os_unlink w (stem ++ ".sh") = Ret tt ->
  printed_of (events w) =
    ["Attempted to print via Safari - check your Downloads folder for the PDF"] /\
  call_result (html_to_pdf w) = Ret tt.
Proof.
  intros HC H1 H2 H3 H4 H5 H6 H7 H8.
  unfold call_result.
  rewrite (printed_when_C w HC), (html_to_pdf_when_C w HC). cbn [snd].
  unfold_program.
  rewrite H1; cbv beta iota. rewrite H2; cbv beta iota.
  rewrite H3; cbv beta iota. rewrite H4, H5; cbv beta iota.
  rewrite H6; cbv beta iota. rewrite H7; cbv beta iota.
  rewrite H8; cbv beta iota. split; reflexivity.
Qed.

(** X12.  When the script has run and only deleting the temporary file
    raises an [Exception], the run prints the failure report with that
    exception's text, and not the Safari line. *)
Theorem unlink_failure_reported_as_total_failure
    (stem : string) (rc : Z) (e : Exn.t) :
  runs_C w = true ->
  import_module w "tempfile" = Ret tt ->
  import_module w "shutil" = Ret tt ->
  NamedTemporaryFile w ".sh" = Ret stem ->
  file_write w (stem ++ ".sh") script = Ret tt ->
  file_close w (stem ++ ".sh") = Ret tt ->
  os_chmod w (stem ++ ".sh") 493 = Ret tt ->
  subprocess_run w [stem ++ ".sh"] = Ret rc ->
  os_unlink w (stem ++ ".sh") = Exc e ->
  Exn.isinstance e Exn.Exception = true ->
  printed_of (events w) =
    ["All PDF conversion methods failed: " ++ Exn.str e;
     Str.nl ++ "Alternative solutions:";
     "1. Open the HTML file in a browser and use Print > Save as PDF";
     "2. Install pandoc: brew install pandoc";
     "3. Install wkhtmltopdf: brew install wkhtmltopdf";
     Str.nl ++ "HTML file is available at: " ++ html_file] /\
  In (SubprocessRun [stem ++ ".sh"] false) (events w) /\
  call_result (html_to_pdf w) = Ret tt.
Proof.
  intros HC H1 H2 H3 H4 H5 H6 H7 H8 H9.
  assert (E : attempt_C w =
    (List.app
       [ImportModule "tempfile"; ImportModule "shutil";
        TempCreate "w" ".sh" false;
        FileWrite (stem ++ ".sh") script;
        FileClose (stem ++ ".sh");
        Chmod (stem ++ ".sh") 493;
        SubprocessRun [stem ++ ".sh"] false;
        Unlink (stem ++ ".sh")]
       (fst (report_failure e)), Next tt)).
  { unfold_program.
    rewrite H1; cbv beta iota. rewrite H2; cbv beta iota.
    rewrite H3; cbv beta iota. rewrite H4, H5; cbv beta iota.
    rewrite H6; cbv beta iota. rewrite H7; cbv beta iota.
    rewrite H8; cbv beta iota. rewrite H9. reflexivity. }
  unfold call_result.
  rewrite (printed_when_C w HC).
  unfold events. rewrite (html_to_pdf_when_C w HC), E. cbn [fst snd].
  repeat split.
  apply in_or_app; right. apply in_or_app; right.
  cbn [app In]. auto 10.
Qed.

(** A call of a trace is one of its events and is not a print. *)
Lemma calls_of_In (ev : event) (t : trace) :
  In ev (calls_of t) -> In ev t /\ forall l, ev <> PrintLine l.
Proof.
  unfold calls_of. intros H. apply filter_In in H as [H1 H2].
  split; [exact H1|]. intros l ->. discriminate H2.
Qed.

(** No [try] makes a call twice. *)
Lemma attempt_A_calls_NoDup : NoDup (calls_of (fst (attempt_A w))).
Proof.
  execute; cbn [app calls_of filter];
    repeat (constructor; [cbn [In]; intuition discriminate|]);
    constructor.
Qed.

Lemma attempt_B_calls_NoDup : NoDup (calls_of (fst (attempt_B w))).
Proof.
  execute; cbn [app calls_of filter];
    repeat (constructor; [cbn [In]; intuition discriminate|]);
    constructor.
Qed.

Lemma attempt_C_calls_NoDup : NoDup (calls_of (fst (attempt_C w))).
Proof.
  execute; cbn [app calls_of filter];
    repeat (constructor; [cbn [In]; intuition discriminate|]);
    constructor.
Qed.

(** X14.  Nothing is retried: no run makes the same call twice. *)
Theorem no_call_made_twice : NoDup (calls_of (events w)).
Proof.
  rewrite events_split. unfold calls_of. rewrite filter_app.
  apply NoDup_app; [apply attempt_A_calls_NoDup | |].
  - destruct (runs_B w); [|constructor].
    rewrite filter_app.
    apply NoDup_app; [apply attempt_B_calls_NoDup | |].
    + destruct (falls_through (attempt_B w)); [|constructor].
      apply attempt_C_calls_NoDup.
    + intros ev HB HC.
      destruct (falls_through (attempt_B w)); [|contradiction].
      apply calls_of_In in HB as [HB HBp], HC as [HC _].
      apply attempt_B_events in HB as [->|[[-> _]|[[-> _]|[-> _]]]];
        try (now destruct (HBp _ eq_refl));
        apply attempt_C_events in HC
          as [H|[H|[H|[(stem & _ & [H|[H|[H|[H|H]]]])|[l H]]]]];
        discriminate H.
  - intros ev HA HBC.
    apply calls_of_In in HA as [HA HAp].
    destruct (runs_B w); [|contradiction].
    fold (calls_of (fst (attempt_B w) ++
            (if falls_through (attempt_B w) then fst (attempt_C w)
             else []))%list) in HBC.
    apply calls_of_In in HBC as [HBC _].
    apply in_app_or in HBC as [HB|HC].
    + apply attempt_A_events in HA as [->|[[-> _]|[-> _]]];
        try (now destruct (HAp _ eq_refl));
        apply attempt_B_events in HB as [H|[[H _]|[[H _]|[H _]]]];
        discriminate H.
    + destruct (falls_through (attempt_B w)); [|contradiction].
      apply attempt_A_events in HA as [->|[[-> _]|[-> _]]];
        try (now destruct (HAp _ eq_refl));
        apply attempt_C_events in HC
          as [H|[H|[H|[(stem & _ & [H|[H|[H|[H|H]]]])|[l H]]]]];
        discriminate H.
Qed.

(** X13.  When importing [tempfile] or [shutil] raises an [Exception], the
    third [try] creates no file and runs nothing: it only prints the
    failure report. *)
Theorem import_failure_aborts_fallback (e : Exn.t) :
  runs_C w = true ->
  import_module w "tempfile" = Exc e \/
  (import_module w "tempfile" = Ret tt /\
   import_module w "shutil" = Exc e) ->
  Exn.isinstance e Exn.Exception = true ->
  (forall ev, In ev (fst (attempt_C w)) ->
     ev = ImportModule "tempfile" \/ ev = ImportModule "shutil" \/
     exists l, ev = PrintLine l) /\
  printed_of (events w) =
    ["All PDF conversion methods failed: " ++ Exn.str e;
     Str.nl ++ "Alternative solutions:";
     "1. Open the HTML file in a browser and use Print > Save as PDF";
     "2. Install pandoc: brew install pandoc";
     "3. Install wkhtmltopdf: brew install wkhtmltopdf";
     Str.nl ++ "HTML file is available at: " ++ html_file] /\
  call_result (html_to_pdf w) = Ret tt.
Proof.
  intros HC H He.
  unfold call_result.
  rewrite (printed_when_C w HC), (html_to_pdf_when_C w HC). cbn [snd].
  unfold_program.
  destruct H as [H|[H1 H2]].
  - rewrite H; cbv beta iota. rewrite He.
    repeat split. cbn [app In]. intros ev Hin.
    repeat (destruct Hin as [<-|Hin]; [eauto|]). contradiction.
  - rewrite H1; cbv beta iota. rewrite H2; cbv beta iota. rewrite He.
    repeat split. cbn [app In]. intros ev Hin.
    repeat (destruct Hin as [<-|Hin]; [eauto|]). contradiction.
Qed.

(** X5.  When importing weasyprint raises an [ImportError], the second
    [try] does nothing but that import, prints nothing, and the third [try]
    follows at once. *)
Theorem library_missing_falls_back (e : Exn.t) :
  runs_B w = true ->
  import_module w "weasyprint" = Exc e ->
  Exn.isinstance e Exn.ImportError = true ->
  attempt_B w = ([ImportModule "weasyprint"], Next tt) /\
  runs_C w = true /\
  events w =
    (fst (attempt_A w) ++ ImportModule "weasyprint" :: fst (attempt_C w))%list.
Proof.
  intros HB H He.
  assert (E : attempt_B w = ([ImportModule "weasyprint"], Next tt)).
  { unfold_program. rewrite H; cbv beta iota. rewrite He. reflexivity. }
  assert (HC : runs_C w = true).
  { unfold runs_C, falls_through. now rewrite HB, E. }
  repeat split; try assumption.
  unfold events. rewrite (html_to_pdf_when_C w HC), E. reflexivity.
Qed.

(** X15.  Only the probe is run with [capture_output=True]; the tool and the
    script are run with their output left on the terminal. *)
Theorem only_probe_captures_output (argv : list string) :
  In (SubprocessRun argv true) (events w) -> argv = which_argv.
Proof.
  rewrite events_split. intros H.
  apply in_app_or in H as [H|H].
  - apply attempt_A_events in H as [H|[[H _]|[H _]]];
      [now injection H | discriminate H | discriminate H].
  - destruct (runs_B w); [|contradiction].
    apply in_app_or in H as [H|H].
    + apply attempt_B_events in H as [H|[[H _]|[[H _]|[H _]]]];
        discriminate H.
    + destruct (falls_through (attempt_B w)); [|contradiction].
      apply attempt_C_events in H
        as [H|[H|[H|[(stem & _ & [H|[H|[H|[H|H]]]])|[l H]]]]];
        discriminate H.
Qed.

(** X16.  With the temporary file created, written, closed and made
    executable, the script is started exactly once whatever that call then
    does; [os.unlink] is called exactly once, on that file, when the run
    returns, and is not called at all when the run raises. *)
Theorem script_run_once_unlink_iff_returned (stem : string) :
  import_module w "tempfile" = Ret tt ->
  import_module w "shutil" = Ret tt ->
  NamedTemporaryFile w ".sh" = Ret stem ->
  file_write w (stem ++ ".sh") script = Ret tt ->
  file_close w (stem ++ ".sh") = Ret tt ->
  os_chmod w (stem ++ ".sh") 493 = Ret tt ->
  runs_of [stem ++ ".sh"] (fst (attempt_C w)) =
    [SubprocessRun [stem ++ ".sh"] false] /\
  (forall rc, subprocess_run w [stem ++ ".sh"] = Ret rc ->
     filter is_unlink (fst (attempt_C w)) = [Unlink (stem ++ ".sh")]) /\
  (forall e, subprocess_run w [stem ++ ".sh"] = Exc e ->
     filter is_unlink (fst (attempt_C w)) = []).
Proof.
  intros H1 H2 H3 H4 H5 H6.
  assert (E : exists t,
            fst (attempt_C w) =
              List.app
                [ImportModule "tempfile"; ImportModule "shutil";
                 TempCreate "w" ".sh" false;
                 FileWrite (stem ++ ".sh") script;
                 FileClose (stem ++ ".sh");
                 Chmod (stem ++ ".sh") 493;
                 SubprocessRun [stem ++ ".sh"] false] t /\
            runs_of [stem ++ ".sh"] t = [] /\
            (forall rc, subprocess_run w [stem ++ ".sh"] = Ret rc ->
               filter is_unlink t = [Unlink (stem ++ ".sh")]) /\
            (forall e, subprocess_run w [stem ++ ".sh"] = Exc e ->
               filter is_unlink t = [])).
  { unfold_program.
    rewrite H1; cbv beta iota. rewrite H2; cbv beta iota.
    rewrite H3; cbv beta iota. rewrite H4, H5; cbv beta iota.
    rewrite H6; cbv beta iota.
    split_on_world; cbn [app]; eexists; (split; [reflexivity|]);
      (split; [reflexivity|]); split; intros x Hx;
      (discriminate Hx || reflexivity). }
  destruct E as (t & -> & Hr & Hret & Hexc).
  unfold runs_of in *. rewrite !filter_app, Hr.
  cbn [filter app argv_eqb andb is_unlink].
  rewrite String.eqb_refl. cbn [andb app].
  repeat split; assumption.
Qed.

End Further.

(** ** Sample runs *)

(** *** Runs in which the theorems above apply *)

Lemma attempt_A_swallows_witness :
  (snd (attempt_A Worlds.tool_interrupted) = Next tt /\
   printed_of (fst (attempt_A Worlds.tool_interrupted)) = [] /\
   runs_B Worlds.tool_interrupted = true) /\
  (snd (attempt_A Worlds.probe_fails) = Next tt /\
   printed_of (fst (attempt_A Worlds.probe_fails)) = [] /\
   runs_B Worlds.probe_fails = true).
Proof.
  split.
  - destruct (attempt_A_swallows Worlds.tool_interrupted Worlds.interrupt)
      as (_ & H1 & H2 & H3 & _).
    + right. split; reflexivity.
    + exact (conj H1 (conj H2 H3)).
  - destruct (attempt_A_swallows Worlds.probe_fails Worlds.no_which)
      as (_ & H1 & H2 & H3 & _).
    + left. reflexivity.
    + exact (conj H1 (conj H2 H3)).
Defined.

Lemma tool_status_ignored_witness :
  probe (Worlds.tool_exits 1) = Ret 0 /\
  tool (Worlds.tool_exits 1) = Ret 1 /\
  printed_of (events (Worlds.tool_exits 1)) =
    ["PDF created using wkhtmltopdf: " ++ pdf_file].
Proof.
  split; [reflexivity | split; [reflexivity|]].
  apply (tool_status_ignored (Worlds.tool_exits 1) 1); reflexivity.
Defined.


Lemma render_fault_propagates_witness :
  call_result (html_to_pdf Worlds.weasyprint_denied) = Exc Worlds.denied /\
  runs_C Worlds.weasyprint_denied = false.
Proof.
  destruct (render_fault_propagates Worlds.weasyprint_denied Worlds.denied)
    as (H1 & H2 & _); [reflexivity | reflexivity | reflexivity |].
  exact (conj H1 H2).
Defined.

Lemma library_renders_once_witness :
  call_result (html_to_pdf Worlds.weasyprint_renders) = Ret tt /\
  runs_C Worlds.weasyprint_renders = false.
Proof.
  apply (library_renders_once Worlds.weasyprint_renders 1);
    (reflexivity || lia).
Defined.

Lemma script_lifecycle_witness :
  calls_of (fst (attempt_C (Worlds.script_exits 1))) =
    [ImportModule "tempfile"; ImportModule "shutil";
     TempCreate "w" ".sh" false;
     FileWrite Worlds.tmp_name script;
     FileClose Worlds.tmp_name;
     Chmod Worlds.tmp_name 493;
     SubprocessRun [Worlds.tmp_name] false;
     Unlink Worlds.tmp_name].
Proof.
  apply (script_lifecycle (Worlds.script_exits 1) Worlds.tmp_stem 1);
    reflexivity.
Defined.

Lemma fallback_failure_reported_witness :
  call_result (html_to_pdf Worlds.script_not_executable) = Ret tt /\
  Str.Infix html_file (stdout Worlds.script_not_executable).
Proof.
  destruct (fallback_failure_reported Worlds.script_not_executable
              Worlds.exec_format)
    as (H1 & _ & _ & _ & _ & _ & _ & H2);
    [reflexivity | reflexivity | reflexivity |].
  exact (conj H1 H2).
Defined.


(** *** Runs that show where the stronger statements stop *)


(** C2.  The script creates its file with [delete=False] and removes it
    itself with [os.unlink], but that call is an ordinary statement after
    the run, with no [finally].  Here the kernel refuses to execute the
    script: the third [try] ran, the file was created and the script
    started once, and nothing deleted the file. *)
Lemma script_left_behind_when_run_raises :
  runs_C Worlds.script_not_executable = true /\
  subprocess_run Worlds.script_not_executable [Worlds.tmp_name] =
    Exc Worlds.exec_format /\
  In (TempCreate "w" ".sh" false) (events Worlds.script_not_executable) /\
  runs_of [Worlds.tmp_name] (events Worlds.script_not_executable) =
    [SubprocessRun [Worlds.tmp_name] false] /\
  filter is_unlink (events Worlds.script_not_executable) = [].
Proof. repeat split. vm_compute. tauto. Qed.


(** C5.  The probe is negative and the library importable, but it may not
    write the PDF: the function does not return, the exception leaves it. *)
Lemma no_return_when_render_raises :
  probe Worlds.weasyprint_denied = Ret 1 /\
  import_module Worlds.weasyprint_denied "weasyprint" = Ret tt /\
  call_result (html_to_pdf Worlds.weasyprint_denied) = Exc Worlds.denied.
Proof. repeat split. Qed.

(** C6.  The user interrupts the script: the interrupt is raised in the
    third [try], is not an [Exception], is not caught, and nothing is
    printed. *)
Lemma interrupt_in_fallback_not_caught :
  runs_C Worlds.script_interrupted = true /\
  snd (attempt_C_body Worlds.script_interrupted) = Raise Worlds.interrupt /\
  call_result (html_to_pdf Worlds.script_interrupted) = Exc Worlds.interrupt /\
  stdout Worlds.script_interrupted = EmptyString.
Proof. repeat split. Qed.

(** *** Runs in which the further properties apply *)

Lemma library_missing_falls_back_witness :
  attempt_B (Worlds.script_exits 0) = ([ImportModule "weasyprint"], Next tt) /\
  runs_C (Worlds.script_exits 0) = true.
Proof.
  destruct (library_missing_falls_back (Worlds.script_exits 0)
              Worlds.no_weasyprint) as (H1 & H2 & _);
    [reflexivity | reflexivity | reflexivity |].
  exact (conj H1 H2).
Defined.

Lemma temp_file_closed_after_write_witness :
  exists t,
    fst (attempt_C Worlds.write_fails) =
      ([ImportModule "tempfile"; ImportModule "shutil";
        TempCreate "w" ".sh" false;
        FileWrite Worlds.tmp_name script;
        FileClose Worlds.tmp_name] ++ t)%list /\
    forall path, ~ In (FileClose path) t.
Proof.
  apply (temp_file_closed_after_write Worlds.write_fails Worlds.tmp_stem);
    reflexivity.
Defined.

Lemma temp_file_left_when_write_fails_witness :
  calls_of (fst (attempt_C Worlds.write_fails)) =
    [ImportModule "tempfile"; ImportModule "shutil";
     TempCreate "w" ".sh" false;
     FileWrite Worlds.tmp_name script;
     FileClose Worlds.tmp_name].
Proof.
  apply (temp_file_left_when_write_fails Worlds.write_fails Worlds.tmp_stem
           Worlds.disk_full); try reflexivity.
  left. reflexivity.
Defined.

Lemma unlink_only_after_script_returned_witness :
  exists stem rc,
    NamedTemporaryFile (Worlds.script_exits 1) ".sh" = Ret stem /\
    Worlds.tmp_name = stem ++ ".sh" /\
    file_write (Worlds.script_exits 1) Worlds.tmp_name script = Ret tt /\
    file_close (Worlds.script_exits 1) Worlds.tmp_name = Ret tt /\
    os_chmod (Worlds.script_exits 1) Worlds.tmp_name 493 = Ret tt /\
    subprocess_run (Worlds.script_exits 1) [Worlds.tmp_name] = Ret rc.
Proof.
  apply (unlink_only_after_script_returned (Worlds.script_exits 1)
           Worlds.tmp_name).
  vm_compute. tauto.
Defined.

Lemma fallback_reports_attempt_whatever_status_witness :
  printed_of (events (Worlds.script_exits 1)) =
    ["Attempted to print via Safari - check your Downloads folder for the PDF"] /\
  call_result (html_to_pdf (Worlds.script_exits 1)) = Ret tt.
Proof.
  apply (fallback_reports_attempt_whatever_status (Worlds.script_exits 1)
           Worlds.tmp_stem 1); reflexivity.
Defined.

Lemma unlink_failure_reported_as_total_failure_witness :
  In (SubprocessRun [Worlds.tmp_name] false) (events Worlds.unlink_fails) /\
  call_result (html_to_pdf Worlds.unlink_fails) = Ret tt.
Proof.
  destruct (unlink_failure_reported_as_total_failure Worlds.unlink_fails
              Worlds.tmp_stem 0 Worlds.unlink_denied) as (_ & H1 & H2);
    try reflexivity.
  exact (conj H1 H2).
Defined.

Lemma import_failure_aborts_fallback_witness :
  printed_of (events Worlds.no_shutil) =
    ["All PDF conversion methods failed: No module named 'shutil'";
     Str.nl ++ "Alternative solutions:";
     "1. Open the HTML file in a browser and use Print > Save as PDF";
     "2. Install pandoc: brew install pandoc";
     "3. Install wkhtmltopdf: brew install wkhtmltopdf";
     Str.nl ++ "HTML file is available at: " ++ html_file] /\
  call_result (html_to_pdf Worlds.no_shutil) = Ret tt.
Proof.
  destruct (import_failure_aborts_fallback Worlds.no_shutil
              Worlds.no_shutil_module) as (_ & H1 & H2);
    [reflexivity | right; split; reflexivity | reflexivity |].
  exact (conj H1 H2).
Defined.

Lemma only_probe_captures_output_witness :
  which_argv = which_argv /\
  In (SubprocessRun which_argv true) (events (Worlds.tool_exits 0)).
Proof.
  assert (H : In (SubprocessRun which_argv true)
                (events (Worlds.tool_exits 0))) by (vm_compute; tauto).
  exact (conj (only_probe_captures_output (Worlds.tool_exits 0) which_argv H)
              H).
Defined.

Lemma script_run_once_unlink_iff_returned_witness :
  (runs_of [Worlds.tmp_name] (fst (attempt_C Worlds.script_not_executable)) =
     [SubprocessRun [Worlds.tmp_name] false] /\
   filter is_unlink (fst (attempt_C Worlds.script_not_executable)) = []) /\
  filter is_unlink (fst (attempt_C (Worlds.script_exits 1))) =
    [Unlink Worlds.tmp_name].
Proof.
  split.
  - destruct (script_run_once_unlink_iff_returned
                Worlds.script_not_executable Worlds.tmp_stem)
      as (H1 & _ & H2);
      [reflexivity | reflexivity | reflexivity | reflexivity | reflexivity
      | reflexivity | exact (conj H1 (H2 Worlds.exec_format eq_refl))].
  - destruct (script_run_once_unlink_iff_returned
                (Worlds.script_exits 1) Worlds.tmp_stem)
      as (_ & H1 & _);
      [reflexivity | reflexivity | reflexivity | reflexivity | reflexivity
      | reflexivity | exact (H1 1 eq_refl)].
Defined.
